(** * Tuya cover adapter (custom_components/tuya_v2/cover.py)

    A shallow embedding of the cover entity of the Tuya v2 integration:
    the status read path ([is_closed], [current_cover_position],
    [supported_features]), the command write path ([open_cover],
    [close_cover], [stop_cover], [set_cover_position]), the entity
    construction of [_setup_entities] and the discovery glue of
    [async_setup_entry], followed by the properties of the specification
    that concern them and by further properties of the code. *)

From stdpp Require Import base numbers strings gmap list.

Local Open Scope string_scope.
Local Open Scope list_scope.
Local Open Scope Z_scope.

(** ** Python values and exceptions *)

(** The values a data point of the vendor status mapping (and a keyword
    argument of a service call) can hold: [None], a boolean, an integer
    of unbounded size, a string. The vendor's data-point types are
    Boolean, Integer, Enum and String; percentages are integers. *)
Inductive value : Type :=
  | VNone
  | VBool (b : bool)
  | VInt (n : Z)
  | VStr (s : string).

#[global] Instance value_eq_dec : EqDecision value.
Proof. solve_decision. Defined.

(** The exceptions the adapter itself can raise. *)
Inductive exn : Type :=
  | KeyError (key : string)
  | TypeError.

Inductive result (A : Type) : Type :=
  | Ok (a : A)
  | Raise (e : exn).
Arguments Ok {A} a.
Arguments Raise {A} e.

(** Truth value of an object, as tested by [not x] and [a if x else b]. *)
Definition truthy (v : value) : bool :=
  match v with
  | VNone => false
  | VBool b => b
  | VInt n => negb (n =? 0)
  | VStr s => negb (String.eqb s "")
  end.

(** [not x] : always a boolean. *)
Definition py_not (v : value) : bool := negb (truthy v).

(** [n - x] for an integer literal [n]: [bool] is a subclass of [int];
    a string or [None] on the right raises [TypeError]. *)
Definition py_sub (n : Z) (v : value) : result Z :=
  match v with
  | VBool b => Ok (n - Z.b2z b)
  | VInt m => Ok (n - m)
  | VNone | VStr _ => Raise TypeError
  end.

(** [d.get(key, default)]. *)
Definition dict_get (d : gmap string value) (key : string) (dflt : value) : value :=
  default dflt (d !! key).

(** [key in d]. *)
Definition dict_contains (d : gmap string value) (key : string) : bool :=
  bool_decide (is_Some (d !! key)).

(** [d[key]]. *)
Definition dict_item (d : gmap string value) (key : string) : result value :=
  match d !! key with
  | Some v => Ok v
  | None => Raise (KeyError key)
  end.

(** ** Data-point codes (cover.py, lines 39-48) *)

Definition DPCODE_CONTROL : string := "control".
Definition DPCODE_PERCENT_CONTROL : string := "percent_control".
Definition DPCODE_PERCENT_STATE : string := "percent_state".
Definition DPCODE_GD_SWITCH1 : string := "switch_1".
Definition DPCODE_GD_CSTATE : string := "doorcontact_state".
Definition ATTR_POSITION : string := "position".

(** ** Constants of the host platform

    [cover.py] imports the two device classes and the four feature flags
    from [homeassistant.components.cover]; their values are not part of
    this repository, so the embedding takes them as parameters. *)
Class HostConsts : Type := {
  DEVICE_CLASS_CURTAIN : string;
  DEVICE_CLASS_GARAGE : string;
  SUPPORT_OPEN : Z;
  SUPPORT_CLOSE : Z;
  SUPPORT_SET_POSITION : Z;
  SUPPORT_STOP : Z
}.

(** The two device classes are different strings. *)
Definition classes_distinct `{HostConsts} : Prop :=
  DEVICE_CLASS_CURTAIN ≠ DEVICE_CLASS_GARAGE.

(** The four feature flags are non-empty bit masks without a common bit. *)
Definition flags_independent `{HostConsts} : Prop :=
  (SUPPORT_OPEN ≠ 0 ∧ SUPPORT_CLOSE ≠ 0 ∧
   SUPPORT_SET_POSITION ≠ 0 ∧ SUPPORT_STOP ≠ 0) ∧
  (Z.land SUPPORT_OPEN SUPPORT_SET_POSITION = 0 ∧
   Z.land SUPPORT_CLOSE SUPPORT_SET_POSITION = 0 ∧
   Z.land SUPPORT_OPEN SUPPORT_STOP = 0 ∧
   Z.land SUPPORT_CLOSE SUPPORT_STOP = 0 ∧
   Z.land SUPPORT_SET_POSITION SUPPORT_STOP = 0).

(** The values Home Assistant gives them. *)
Definition home_assistant : HostConsts := {|
  DEVICE_CLASS_CURTAIN := "curtain";
  DEVICE_CLASS_GARAGE := "garage";
  SUPPORT_OPEN := 1;
  SUPPORT_CLOSE := 2;
  SUPPORT_SET_POSITION := 4;
  SUPPORT_STOP := 8
|}.

(** A feature is advertised when the mask shares a bit with its flag
    ([supported_features & flag] is truthy). *)
Definition supports_feature (supports flag : Z) : bool :=
  negb (Z.land supports flag =? 0).

(** ** Device records and command payloads *)

(** The part of the SDK's [TuyaDevice] that the adapter reads. *)
Record TuyaDevice : Type := {
  category : string;
  status : gmap string value
}.

(** One vendor command: the dict literal [{"code": c, "value": v}]. *)
Record command : Type := {
  code : string;
  cmd_value : value
}.

#[global] Instance command_eq_dec : EqDecision command.
Proof. solve_decision. Defined.

(** Actions of the entity: they may raise, and they hand command lists to
    the device manager. The state threaded through is the sequence of
    command lists handed over so far. *)
Definition Act (A : Type) : Type :=
  list (list command) → result (A * list (list command)).

#[global] Instance act_ret : MRet Act := λ A a sent, Ok (a, sent).

#[global] Instance act_bind : MBind Act := λ A B k m sent,
  match m sent with
  | Ok (a, sent') => k a sent'
  | Raise e => Raise e
  end.

Definition act_lift {A} (r : result A) : Act A :=
  λ sent,
    match r with
    | Ok a => Ok (a, sent)
    | Raise e => Raise e
    end.

(** Modelled from the spec: [TuyaHaDevice._send_command] is defined in
    [base.py], which is not among the sources; the specification leaves
    command transport to the device manager, so a call is recorded as the
    command list it hands over. *)
Definition _send_command (commands : list command) : Act unit :=
  λ sent, Ok (tt, sent ++ [commands]).

(** ** The cover entity (class [TuyaHaCover]) *)

(** [__init__] stores the device class in [_type]; the base class keeps
    the device as [tuya_device]. Every property reads the status the
    device record holds when it is called, so it is a function of the
    entity together with the current device record. *)
Record TuyaHaCover : Type := {
  tuya_device : TuyaDevice;
  _type : string
}.

Section Cover.
Context {host : HostConsts}.

Definition device_class (self : TuyaHaCover) : string := _type self.

Definition _is_garage (self : TuyaHaCover) : bool :=
  String.eqb (_type self) DEVICE_CLASS_GARAGE.

Definition is_closed (self : TuyaHaCover) : bool :=
  if _is_garage self
  then py_not (dict_get (status (tuya_device self)) DPCODE_GD_CSTATE (VBool false))
  else false.

Definition current_cover_position (self : TuyaHaCover) : result Z :=
  let position :=
    if _is_garage self
    then
      if truthy (dict_get (status (tuya_device self)) DPCODE_GD_CSTATE (VBool false))
      then VInt 0
      else VInt 100
    else dict_get (status (tuya_device self)) DPCODE_PERCENT_STATE (VInt 0)
  in
  py_sub 100 position.

Definition open_cover (self : TuyaHaCover) : Act unit :=
  _send_command
    [ {| code := if _is_garage self then DPCODE_GD_SWITCH1 else DPCODE_CONTROL;
         cmd_value := if _is_garage self then VBool true else VStr "open" |} ].

Definition close_cover (self : TuyaHaCover) : Act unit :=
  _send_command
    [ {| code := if _is_garage self then DPCODE_GD_SWITCH1 else DPCODE_CONTROL;
         cmd_value := if _is_garage self then VBool true else VStr "close" |} ].

Definition stop_cover (self : TuyaHaCover) : Act unit :=
  _send_command [ {| code := DPCODE_CONTROL; cmd_value := VStr "stop" |} ].

(** The debug log line has no effect on the entity or on the device. *)
Definition set_cover_position (self : TuyaHaCover) (kwargs : gmap string value)
  : Act unit :=
  position ← act_lift (dict_item kwargs ATTR_POSITION);
  _send_command [ {| code := DPCODE_PERCENT_CONTROL; cmd_value := position |} ].

Definition supported_features (self : TuyaHaCover) : Z :=
  let supports := Z.lor SUPPORT_OPEN SUPPORT_CLOSE in
  let supports :=
    if negb (_is_garage self) then Z.lor supports SUPPORT_STOP else supports in
  let supports :=
    if dict_contains (status (tuya_device self)) DPCODE_PERCENT_CONTROL
    then Z.lor supports SUPPORT_SET_POSITION
    else supports in
  supports.

Definition extra_state_attributes (self : TuyaHaCover) : gmap string value :=
  status (tuya_device self).

(** ** Entity construction ([_setup_entities]) *)

(** The body of the loop for a device that is not [None]. *)
Definition new_cover (device : TuyaDevice) : TuyaHaCover :=
  if String.eqb (category device) "ckmkzq"
  then {| tuya_device := device; _type := DEVICE_CLASS_GARAGE |}
  else {| tuya_device := device; _type := DEVICE_CLASS_CURTAIN |}.

(** [device_map[device_id]] raises [KeyError] for an unknown id; an entry
    that is [None] is skipped. *)
Fixpoint _setup_entities (device_map : gmap string (option TuyaDevice))
    (device_ids : list string) : result (list TuyaHaCover) :=
  match device_ids with
  | [] => Ok []
  | device_id :: rest =>
      match device_map !! device_id with
      | None => Raise (KeyError device_id)
      | Some None => _setup_entities device_map rest
      | Some (Some device) =>
          match _setup_entities device_map rest with
          | Ok entities => Ok (new_cover device :: entities)
          | Raise e => Raise e
          end
      end
  end.

End Cover.

(** ** Concrete devices used in the examples below *)

(** A garage door whose contact sensor reports [True]. *)
Definition garage_contact_true : TuyaDevice :=
  {| category := "ckmkzq";
     status := {[ DPCODE_GD_CSTATE := VBool true ]} |}.

(** A garage door whose contact sensor reports [False]. *)
Definition garage_contact_false : TuyaDevice :=
  {| category := "ckmkzq";
     status := {[ DPCODE_GD_CSTATE := VBool false ]} |}.

(** A garage door whose status has no contact-sensor entry. *)
Definition garage_no_contact : TuyaDevice :=
  {| category := "ckmkzq"; status := ∅ |}.

(** A curtain at raw position 30 that exposes the percent-control field. *)
Definition curtain_30 : TuyaDevice :=
  {| category := "cl";
     status := {[ DPCODE_PERCENT_STATE := VInt 30;
                  DPCODE_PERCENT_CONTROL := VInt 30 ]} |}.

(** A curtain switch with an empty status mapping. *)
Definition curtain_switch_bare : TuyaDevice :=
  {| category := "clkg"; status := ∅ |}.

(** The command lists the examples expect. *)
Definition garage_toggle : list command :=
  [ {| code := "switch_1"; cmd_value := VBool true |} ].

Definition stop_directive : list command :=
  [ {| code := "control"; cmd_value := VStr "stop" |} ].

Definition percent_directive (position : value) : list command :=
  [ {| code := "percent_control"; cmd_value := position |} ].

(** ** Discovery glue ([async_setup_entry], lines 35 and 51-77) *)

Definition TUYA_SUPPORT_TYPE : gset string := {[ "cl"; "clkg"; "ckmkzq" ]}.

(** Exceptions of the discovery glue: those of the adapter, and the one
    that reading [device.category] of a [None] entry raises. *)
Inductive setup_exn : Type :=
  | AdapterError (e : exn)
  | AttributeError.

(** What a coroutine of the glue ends with. *)
Inductive outcome (A : Type) : Type :=
  | Done (a : A)
  | Failed (e : setup_exn).
Arguments Done {A} a.
Arguments Failed {A} e.

(** The part of [hass] and of its collaborators that the glue reads and
    writes. [device_map] is the device manager's dict as its items in
    iteration order; [tuya_ha_devices] is the list the integration keeps
    of its entities (here: the covers); [added_entities] records the calls
    of [async_add_entities], [dispatcher] the signals a callback was
    connected to. *)
Record HassData : Type := {
  tuya_ha_tuya_map : gmap string (gset string);
  tuya_ha_devices : list TuyaHaCover;
  device_map : list (string * option TuyaDevice);
  added_entities : list (list TuyaHaCover);
  dispatcher : list string
}.

(** [device_manager.device_map] as the mapping [_setup_entities] indexes. *)
Definition device_lookup (st : HassData) : gmap string (option TuyaDevice) :=
  list_to_map (device_map st).

(** The loop of lines 73-76 over [device_map.items()]: the ids of the
    devices whose category is supported, in iteration order. Reading
    [device.category] of an entry that is [None] raises. *)
Fixpoint supported_device_ids (items : list (string * option TuyaDevice))
    : outcome (list string) :=
  match items with
  | [] => Done []
  | (device_id, None) :: _ => Failed AttributeError
  | (device_id, Some device) :: rest =>
      match supported_device_ids rest with
      | Done device_ids =>
          if bool_decide (category device ∈ TUYA_SUPPORT_TYPE)
          then Done (device_id :: device_ids)
          else Done device_ids
      | Failed e => Failed e
      end
  end.

Section Discovery.
Context {host : HostConsts}.

(** The callback of lines 59-66, its steps in program order with no other
    task running while it awaits the executor job; [_setup_entities] runs
    on the device map of the state. The state is returned in both
    outcomes: what was written before an exception stays written. *)
Definition async_discover_device (dev_ids : list string) (st : HassData)
    : outcome unit * HassData :=
  match dev_ids with
  | [] => (Done tt, st)
  | _ :: _ =>
      match _setup_entities (device_lookup st) dev_ids with
      | Raise e => (Failed (AdapterError e), st)
      | Ok entities =>
          (Done tt,
           {| tuya_ha_tuya_map := tuya_ha_tuya_map st;
              tuya_ha_devices := tuya_ha_devices st ++ entities;
              device_map := device_map st;
              added_entities := added_entities st ++ [entities];
              dispatcher := dispatcher st |})
      end
  end.

(** [async_setup_entry]. [DEVICE_DOMAIN] is the host's name of the cover
    platform and [discovery_signal] the formatted name of the discovery
    signal; both come from modules outside this file. *)
Definition async_setup_entry (DEVICE_DOMAIN discovery_signal : string)
    (st : HassData) : outcome unit * HassData :=
  let st :=
    {| tuya_ha_tuya_map := <[DEVICE_DOMAIN := TUYA_SUPPORT_TYPE]> (tuya_ha_tuya_map st);
       tuya_ha_devices := tuya_ha_devices st;
       device_map := device_map st;
       added_entities := added_entities st;
       dispatcher := dispatcher st ++ [discovery_signal] |} in
  match supported_device_ids (device_map st) with
  | Failed e => (Failed e, st)
  | Done device_ids => async_discover_device device_ids st
  end.

End Discovery.

Definition hass_with (items : list (string * option TuyaDevice)) : HassData :=
  {| tuya_ha_tuya_map := ∅;
     tuya_ha_devices := [];
     device_map := items;
     added_entities := [];
     dispatcher := [] |}.

(** The entries of a device map whose category is on the allow-list, in
    the order of the map. *)
Definition supported_devices (devs : list (string * TuyaDevice))
    : list (string * TuyaDevice) :=
  filter (λ kd, category kd.2 = "cl" ∨ category kd.2 = "clkg" ∨
                category kd.2 = "ckmkzq") devs.

(** A device map none of whose entries is [None]. *)
Definition device_items (devs : list (string * TuyaDevice))
    : list (string * option TuyaDevice) :=
  prod_map id Some <$> devs.

(** A device map with a garage door, a device of an unsupported category
    and a curtain. *)
Definition three_device_records : list (string * TuyaDevice) :=
  [ ("gd1", garage_no_contact);
    ("sw1", {| category := "kg"; status := ∅ |});
    ("cl1", curtain_30) ].

Definition three_devices : list (string * option TuyaDevice) :=
  device_items three_device_records.

(** A device map with an entry that is [None]. *)
Definition devices_with_gap : list (string * option TuyaDevice) :=
  [ ("gd1", Some garage_no_contact); ("gone", None) ].


(** A garage door that reports a percentage and no contact sensor. *)
Definition garage_with_percent : TuyaDevice :=
  {| category := "ckmkzq"; status := {[ DPCODE_PERCENT_STATE := VInt 40 ]} |}.

(** * Properties *)

(** ** Bit masks *)

Lemma supports_feature_lor (a b flag : Z) :
  supports_feature (Z.lor a b) flag =
  supports_feature a flag || supports_feature b flag.
Proof.
  unfold supports_feature. rewrite Z.land_lor_distr_l.
  destruct (Z.eqb_spec (Z.land a flag) 0) as [Ha | Ha];
    destruct (Z.eqb_spec (Z.land b flag) 0) as [Hb | Hb]; simpl.
  - rewrite Ha, Hb. reflexivity.
  - apply negb_true_iff, Z.eqb_neq. rewrite Z.lor_eq_0_iff. tauto.
  - apply negb_true_iff, Z.eqb_neq. rewrite Z.lor_eq_0_iff. tauto.
  - apply negb_true_iff, Z.eqb_neq. rewrite Z.lor_eq_0_iff. tauto.
Qed.

Lemma supports_feature_self (flag : Z) :
  flag ≠ 0 → supports_feature flag flag = true.
Proof.
  intros Hflag. unfold supports_feature. rewrite Z.land_diag.
  apply negb_true_iff, Z.eqb_neq, Hflag.
Qed.

Lemma supports_feature_disjoint (a flag : Z) :
  Z.land a flag = 0 → supports_feature a flag = false.
Proof. intros Hdisj. unfold supports_feature. rewrite Hdisj. reflexivity. Qed.

Lemma supports_feature_disjoint_sym (a flag : Z) :
  Z.land flag a = 0 → supports_feature a flag = false.
Proof. rewrite Z.land_comm. apply supports_feature_disjoint. Qed.

(** ** Dictionaries *)

Lemma dict_get_present (d : gmap string value) key dflt v :
  d !! key = Some v → dict_get d key dflt = v.
Proof. intros Hkey. unfold dict_get. rewrite Hkey. reflexivity. Qed.

Lemma dict_get_absent (d : gmap string value) key dflt :
  d !! key = None → dict_get d key dflt = dflt.
Proof. intros Hkey. unfold dict_get. rewrite Hkey. reflexivity. Qed.

Lemma dict_contains_spec (d : gmap string value) key :
  dict_contains d key = true ↔ is_Some (d !! key).
Proof. unfold dict_contains. apply bool_decide_eq_true. Qed.

Section CoverFacts.
Context {host : HostConsts}.

(** ** Classification *)

Lemma new_cover_device (d : TuyaDevice) : tuya_device (new_cover d) = d.
Proof. unfold new_cover. destruct (String.eqb _ _); reflexivity. Qed.

Lemma new_cover_garage (d : TuyaDevice) :
  category d = "ckmkzq" → _is_garage (new_cover d) = true.
Proof.
  intros Hcat. unfold new_cover. rewrite Hcat. simpl.
  unfold _is_garage. simpl. apply String.eqb_refl.
Qed.

Lemma new_cover_curtain (d : TuyaDevice) :
  classes_distinct → category d ≠ "ckmkzq" → _is_garage (new_cover d) = false.
Proof.
  intros Hcls Hcat. unfold new_cover.
  apply String.eqb_neq in Hcat. rewrite Hcat.
  unfold _is_garage. simpl. apply String.eqb_neq, Hcls.
Qed.

(** With distinct device classes, the garage test on a constructed
    entity is the test on the category code. *)
Lemma new_cover_is_garage_iff (d : TuyaDevice) :
  classes_distinct →
  _is_garage (new_cover d) = true ↔ category d = "ckmkzq".
Proof.
  intros Hcls. split.
  - intros Hg. destruct (decide (category d = "ckmkzq")) as [Hcat | Hcat]; [exact Hcat |].
    rewrite (new_cover_curtain d Hcls Hcat) in Hg. discriminate.
  - apply new_cover_garage.
Qed.

(** Every entity that [_setup_entities] returns was built by the loop
    body from a device of the device map. *)
Lemma _setup_entities_new_cover device_map (device_ids : list string) entities :
  _setup_entities device_map device_ids = Ok entities →
  ∀ self, self ∈ entities →
    ∃ device_id d, device_id ∈ device_ids ∧
      device_map !! device_id = Some (Some d) ∧ self = new_cover d.
Proof.
  revert entities. induction device_ids as [| device_id rest IH]; intros entities Hrun self Hin.
  - simpl in Hrun. injection Hrun as <-. inversion Hin.
  - simpl in Hrun. destruct (device_map !! device_id) as [[d |] |] eqn:Hlook.
    + destruct (_setup_entities device_map rest) as [tail | e] eqn:Hrest; [| discriminate].
      injection Hrun as <-. apply elem_of_cons in Hin as [-> | Hin].
      * exists device_id, d. split; [left | split; [exact Hlook | reflexivity]].
      * destruct (IH tail eq_refl self Hin) as (i & d' & Hi & Hd & Hs).
        exists i, d'. split; [right; exact Hi | split; assumption].
    + destruct (IH entities Hrun self Hin) as (i & d' & Hi & Hd & Hs).
      exists i, d'. split; [right; exact Hi | split; assumption].
    + discriminate.
Qed.

(** When every announced id is known to the device map, the
    construction does not raise. *)
Lemma _setup_entities_ok device_map (device_ids : list string) :
  (∀ device_id, device_id ∈ device_ids → is_Some (device_map !! device_id)) →
  ∃ entities, _setup_entities device_map device_ids = Ok entities.
Proof.
  induction device_ids as [| device_id rest IH]; intros Hknown.
  - exists []. reflexivity.
  - destruct IH as [tail Htail].
    { intros i Hi. apply Hknown. right. exact Hi. }
    destruct (Hknown device_id) as [[d |] Hd]; [left | |]; simpl; rewrite Hd, ?Htail; eauto.
Qed.

(** ** Status read path, for any entity *)

Lemma is_closed_garage (self : TuyaHaCover) :
  _is_garage self = true →
  is_closed self =
    py_not (dict_get (status (tuya_device self)) DPCODE_GD_CSTATE (VBool false)).
Proof. intros Hg. unfold is_closed. rewrite Hg. reflexivity. Qed.

Lemma is_closed_not_garage (self : TuyaHaCover) :
  _is_garage self = false → is_closed self = false.
Proof. intros Hg. unfold is_closed. rewrite Hg. reflexivity. Qed.

(** A garage door is at 100 when the contact-sensor entry is truthy and
    at 0 otherwise: the synthesized 0/100 goes through [100 - position]
    like the raw percentage of a curtain. *)
Lemma current_cover_position_garage (self : TuyaHaCover) :
  _is_garage self = true →
  current_cover_position self =
    Ok (if truthy (dict_get (status (tuya_device self)) DPCODE_GD_CSTATE (VBool false))
        then 100 else 0).
Proof.
  intros Hg. unfold current_cover_position. rewrite Hg.
  destruct (truthy _); reflexivity.
Qed.

Lemma current_cover_position_not_garage (self : TuyaHaCover) :
  _is_garage self = false →
  current_cover_position self =
    py_sub 100 (dict_get (status (tuya_device self)) DPCODE_PERCENT_STATE (VInt 0)).
Proof. intros Hg. unfold current_cover_position. rewrite Hg. reflexivity. Qed.

(** The read path of a garage door never raises. *)
Lemma current_cover_position_garage_total (self : TuyaHaCover) :
  _is_garage self = true →
  current_cover_position self = Ok 0 ∨ current_cover_position self = Ok 100.
Proof.
  intros Hg. rewrite (current_cover_position_garage self Hg).
  destruct (truthy _); [right | left]; reflexivity.
Qed.

(** A curtain whose percent-state entry is a string or [None] makes the
    subtraction raise. *)
Lemma current_cover_position_curtain_type_error (self : TuyaHaCover) s :
  _is_garage self = false →
  status (tuya_device self) !! DPCODE_PERCENT_STATE = Some (VStr s) →
  current_cover_position self = Raise TypeError.
Proof.
  intros Hg Hraw. rewrite (current_cover_position_not_garage self Hg).
  rewrite (dict_get_present _ _ _ _ Hraw). reflexivity.
Qed.

(** The feature mask, flag by flag. *)
Lemma supported_features_flags (self : TuyaHaCover) :
  flags_independent →
  let supports := supported_features self in
  supports_feature supports SUPPORT_OPEN = true ∧
  supports_feature supports SUPPORT_CLOSE = true ∧
  supports_feature supports SUPPORT_STOP = negb (_is_garage self) ∧
  supports_feature supports SUPPORT_SET_POSITION =
    dict_contains (status (tuya_device self)) DPCODE_PERCENT_CONTROL.
Proof.
  intros [(Ho & Hc & Hp & Hs) (Hop & Hcp & Hos & Hcs & Hps)]. simpl.
  unfold supported_features.
  destruct (_is_garage self); destruct (dict_contains _ _); simpl;
    rewrite ?supports_feature_lor;
    rewrite ?(supports_feature_self _ Ho), ?(supports_feature_self _ Hc),
      ?(supports_feature_self _ Hp), ?(supports_feature_self _ Hs),
      ?(supports_feature_disjoint _ _ Hop), ?(supports_feature_disjoint _ _ Hcp),
      ?(supports_feature_disjoint _ _ Hos), ?(supports_feature_disjoint _ _ Hcs),
      ?(supports_feature_disjoint _ _ Hps), ?(supports_feature_disjoint_sym _ _ Hps);
    simpl; rewrite ?orb_true_r; auto.
Qed.

(** ** The claims of the specification *)

(** C1 (as the code has it). For a garage door (category [ckmkzq]),
    [current_cover_position] is 100 when the contact-sensor boolean
    [doorcontact_state] is true and 0 when it is false or absent; in every
    case it is 0 when [is_closed] holds and 100 when it does not
    (closed -> 0, open -> 100). *)
Theorem garage_position_from_contact (d : TuyaDevice) :
  category d = "ckmkzq" →
  (∀ b : bool, status d !! DPCODE_GD_CSTATE = Some (VBool b) →
     current_cover_position (new_cover d) = Ok (if b then 100 else 0)) ∧
  (status d !! DPCODE_GD_CSTATE = None →
     current_cover_position (new_cover d) = Ok 0) ∧
  current_cover_position (new_cover d) =
    Ok (if is_closed (new_cover d) then 0 else 100).
Proof.
  intros Hcat. pose proof (new_cover_garage d Hcat) as Hg.
  rewrite (current_cover_position_garage _ Hg), (is_closed_garage _ Hg).
  rewrite new_cover_device. repeat split.
  - intros b Hb. rewrite (dict_get_present _ _ _ _ Hb). reflexivity.
  - intros Habs. rewrite (dict_get_absent _ _ _ Habs). reflexivity.
  - unfold py_not. destruct (truthy _); reflexivity.
Qed.

(** C2. For a garage door whose status contains [doorcontact_state],
    [is_closed] is the logical negation of that boolean. *)
Theorem garage_is_closed_negates_contact (d : TuyaDevice) (b : bool) :
  category d = "ckmkzq" →
  status d !! DPCODE_GD_CSTATE = Some (VBool b) →
  is_closed (new_cover d) = negb b.
Proof.
  intros Hcat Hb.
  rewrite (is_closed_garage _ (new_cover_garage d Hcat)), new_cover_device.
  rewrite (dict_get_present _ _ _ _ Hb). reflexivity.
Qed.

(** C3 (as the code has it). For a garage door whose status has
    [doorcontact_state] set to true, [is_closed] returns [False]. *)
Theorem garage_contact_true_not_closed (d : TuyaDevice) :
  category d = "ckmkzq" →
  status d !! DPCODE_GD_CSTATE = Some (VBool true) →
  is_closed (new_cover d) = false.
Proof.
  intros Hcat Hb. unfold is_closed.
  rewrite (new_cover_garage d Hcat), new_cover_device.
  unfold py_not, dict_get. rewrite Hb. reflexivity.
Qed.

(** C4 (as the code has it). For a garage door whose status lacks
    [doorcontact_state], the lookup yields the default [False] without
    raising, and [is_closed] reports the cover as closed ([True]). *)
Theorem garage_missing_contact_closed (d : TuyaDevice) :
  category d = "ckmkzq" →
  status d !! DPCODE_GD_CSTATE = None →
  dict_get (status d) DPCODE_GD_CSTATE (VBool false) = VBool false ∧
  is_closed (new_cover d) = true.
Proof.
  intros Hcat Habs. split.
  - apply dict_get_absent, Habs.
  - unfold is_closed. rewrite (new_cover_garage d Hcat), new_cover_device.
    unfold py_not, dict_get. rewrite Habs. reflexivity.
Qed.

(** C5. For a garage door, [close_cover] hands over exactly the command
    list of [open_cover], namely [{code: "switch_1", value: True}]: the
    close command carries [True], not [False]. *)
Theorem garage_close_same_as_open (d : TuyaDevice) (sent : list (list command)) :
  category d = "ckmkzq" →
  close_cover (new_cover d) sent = Ok (tt, sent ++ [garage_toggle]) ∧
  open_cover (new_cover d) sent = Ok (tt, sent ++ [garage_toggle]).
Proof.
  intros Hcat. unfold close_cover, open_cover.
  rewrite (new_cover_garage d Hcat). split; reflexivity.
Qed.

(** C6. Whatever the entity's device class and whatever the [position]
    argument, [set_cover_position] hands over the single command
    [{code: "percent_control", value: position}] with the argument
    unchanged: no [100 - x], no range check. *)
Theorem set_cover_position_verbatim (self : TuyaHaCover)
    (kwargs : gmap string value) (position : value) (sent : list (list command)) :
  kwargs !! ATTR_POSITION = Some position →
  set_cover_position self kwargs sent =
    Ok (tt, sent ++ [percent_directive position]).
Proof.
  intros Hpos. unfold set_cover_position, dict_item, mbind, act_bind, act_lift.
  rewrite Hpos. reflexivity.
Qed.

(** C7. For every entity, garage doors included, [stop_cover] hands over
    the single command [{code: "control", value: "stop"}], although a
    garage door does not advertise the stop feature. *)
Theorem stop_cover_unconditional (self : TuyaHaCover) (sent : list (list command)) :
  stop_cover self sent = Ok (tt, sent ++ [stop_directive]) ∧
  (flags_independent → _is_garage self = true →
   supports_feature (supported_features self) SUPPORT_STOP = false).
Proof.
  split; [reflexivity |].
  intros Hflags Hg.
  destruct (supported_features_flags self Hflags) as (_ & _ & Hstop & _).
  rewrite Hstop, Hg. reflexivity.
Qed.

(** C8. For a curtain (any category other than [ckmkzq]),
    [current_cover_position] is 100 minus the raw [percent_state], and 100
    when the field is absent (raw defaults to 0). *)
Theorem curtain_position_inverts_raw (d : TuyaDevice) :
  classes_distinct →
  category d ≠ "ckmkzq" →
  (∀ raw : Z, status d !! DPCODE_PERCENT_STATE = Some (VInt raw) →
     current_cover_position (new_cover d) = Ok (100 - raw)) ∧
  (status d !! DPCODE_PERCENT_STATE = None →
     current_cover_position (new_cover d) = Ok 100).
Proof.
  intros Hcls Hcat.
  rewrite (current_cover_position_not_garage _ (new_cover_curtain d Hcls Hcat)).
  rewrite new_cover_device. split.
  - intros raw Hraw. rewrite (dict_get_present _ _ _ _ Hraw). reflexivity.
  - intros Habs. rewrite (dict_get_absent _ _ _ Habs). reflexivity.
Qed.

(** C9. For every device, [supported_features] includes open and close,
    includes stop exactly when the device is not a garage door, and
    includes set-position exactly when [percent_control] is a key of the
    status mapping. *)
Theorem supported_features_by_device (d : TuyaDevice) :
  classes_distinct →
  flags_independent →
  supports_feature (supported_features (new_cover d)) SUPPORT_OPEN = true ∧
  supports_feature (supported_features (new_cover d)) SUPPORT_CLOSE = true ∧
  (supports_feature (supported_features (new_cover d)) SUPPORT_STOP = true
     ↔ category d ≠ "ckmkzq") ∧
  (supports_feature (supported_features (new_cover d)) SUPPORT_SET_POSITION = true
     ↔ is_Some (status d !! DPCODE_PERCENT_CONTROL)).
Proof.
  intros Hcls Hflags.
  destruct (supported_features_flags (new_cover d) Hflags)
    as (Hopen & Hclose & Hstop & Hpos).
  repeat split; try assumption.
  - rewrite Hstop. intros Hng Hcat.
    rewrite (new_cover_garage d Hcat) in Hng. discriminate.
  - intros Hcat. rewrite Hstop, (new_cover_curtain d Hcls Hcat). reflexivity.
  - rewrite Hpos, new_cover_device. apply dict_contains_spec.
  - rewrite Hpos, new_cover_device. apply dict_contains_spec.
Qed.

(** C10. For a curtain (any category other than [ckmkzq]) and every
    status mapping, [is_closed] is [False]. *)
Theorem curtain_never_closed (d : TuyaDevice) :
  classes_distinct →
  category d ≠ "ckmkzq" →
  is_closed (new_cover d) = false.
Proof.
  intros Hcls Hcat. unfold is_closed.
  rewrite (new_cover_curtain d Hcls Hcat). reflexivity.
Qed.

End CoverFacts.

(** ** The claims at Home Assistant's constants

    Instances of the theorems above on the concrete devices, and the
    inputs on which the specification's wording and the code part ways. *)

Section AtHomeAssistant.
#[local] Existing Instance home_assistant.

(** C1, as worded in the specification, fails: with the contact sensor
    true the position is 100, not 0, and with it false the position is 0,
    not 100. *)
Lemma garage_position_counterexample :
  (category garage_contact_true = "ckmkzq" ∧
   status garage_contact_true !! DPCODE_GD_CSTATE = Some (VBool true) ∧
   current_cover_position (new_cover garage_contact_true) = Ok 100 ∧
   current_cover_position (new_cover garage_contact_true) ≠ Ok 0) ∧
  (category garage_contact_false = "ckmkzq" ∧
   status garage_contact_false !! DPCODE_GD_CSTATE = Some (VBool false) ∧
   current_cover_position (new_cover garage_contact_false) = Ok 0 ∧
   current_cover_position (new_cover garage_contact_false) ≠ Ok 100).
Proof. repeat split; try reflexivity; vm_compute; discriminate. Qed.

Lemma garage_position_from_contact_witness :
  category garage_contact_true = "ckmkzq" ∧
  current_cover_position (new_cover garage_contact_true) = Ok 100 ∧
  current_cover_position (new_cover garage_no_contact) = Ok 0.
Proof.
  split; [reflexivity |]. split.
  - exact (proj1 (garage_position_from_contact garage_contact_true eq_refl)
             true eq_refl).
  - exact (proj1 (proj2 (garage_position_from_contact garage_no_contact eq_refl))
             eq_refl).
Defined.

Lemma garage_is_closed_negates_contact_witness :
  category garage_contact_false = "ckmkzq" ∧
  status garage_contact_false !! DPCODE_GD_CSTATE = Some (VBool false) ∧
  is_closed (new_cover garage_contact_false) = true.
Proof.
  split; [reflexivity |]. split; [reflexivity |].
  exact (garage_is_closed_negates_contact garage_contact_false false eq_refl eq_refl).
Defined.

(** C3, as worded in the specification, fails: the garage door whose
    contact sensor is true is reported as not closed. *)
Lemma garage_contact_true_counterexample :
  category garage_contact_true = "ckmkzq" ∧
  status garage_contact_true !! DPCODE_GD_CSTATE = Some (VBool true) ∧
  is_closed (new_cover garage_contact_true) ≠ true.
Proof. repeat split; try reflexivity; vm_compute; discriminate. Qed.

Lemma garage_contact_true_not_closed_witness :
  category garage_contact_true = "ckmkzq" ∧
  status garage_contact_true !! DPCODE_GD_CSTATE = Some (VBool true) ∧
  is_closed (new_cover garage_contact_true) = false.
Proof.
  split; [reflexivity |]. split; [reflexivity |].
  exact (garage_contact_true_not_closed garage_contact_true eq_refl eq_refl).
Defined.

(** C4, as worded in the specification, fails: without a contact-sensor
    entry the garage door is reported as closed, not open. *)
Lemma garage_missing_contact_counterexample :
  category garage_no_contact = "ckmkzq" ∧
  status garage_no_contact !! DPCODE_GD_CSTATE = None ∧
  is_closed (new_cover garage_no_contact) ≠ false.
Proof. repeat split; try reflexivity; vm_compute; discriminate. Qed.

Lemma garage_missing_contact_closed_witness :
  category garage_no_contact = "ckmkzq" ∧
  status garage_no_contact !! DPCODE_GD_CSTATE = None ∧
  is_closed (new_cover garage_no_contact) = true.
Proof.
  split; [reflexivity |]. split; [reflexivity |].
  exact (proj2 (garage_missing_contact_closed garage_no_contact eq_refl eq_refl)).
Defined.

Lemma garage_close_same_as_open_witness :
  category garage_contact_true = "ckmkzq" ∧
  close_cover (new_cover garage_contact_true) [] = Ok (tt, [garage_toggle]) ∧
  open_cover (new_cover garage_contact_true) [] = Ok (tt, [garage_toggle]).
Proof.
  split; [reflexivity |].
  exact (garage_close_same_as_open garage_contact_true [] eq_refl).
Defined.

(** A position outside 0..100, on a garage door, goes out unchanged. *)
Lemma set_cover_position_verbatim_witness :
  ({[ ATTR_POSITION := VInt 250 ]} : gmap string value) !! ATTR_POSITION
    = Some (VInt 250) ∧
  set_cover_position (new_cover garage_contact_true)
      {[ ATTR_POSITION := VInt 250 ]} []
    = Ok (tt, [percent_directive (VInt 250)]).
Proof.
  split; [reflexivity |].
  exact (set_cover_position_verbatim (new_cover garage_contact_true)
           {[ ATTR_POSITION := VInt 250 ]} (VInt 250) [] eq_refl).
Defined.

Lemma stop_cover_unconditional_witness :
  stop_cover (new_cover garage_contact_true) [] = Ok (tt, [stop_directive]) ∧
  supports_feature (supported_features (new_cover garage_contact_true)) SUPPORT_STOP
    = false.
Proof.
  destruct (stop_cover_unconditional (new_cover garage_contact_true) [])
    as [Hsent Hfeature].
  split; [exact Hsent |].
  apply Hfeature; [| reflexivity].
  unfold flags_independent. simpl. repeat split; discriminate.
Defined.

Lemma curtain_position_inverts_raw_witness :
  classes_distinct ∧ category curtain_30 ≠ "ckmkzq" ∧
  current_cover_position (new_cover curtain_30) = Ok 70 ∧
  current_cover_position (new_cover curtain_switch_bare) = Ok 100.
Proof.
  assert (Hcls : classes_distinct) by (unfold classes_distinct; simpl; discriminate).
  assert (H30 : category curtain_30 ≠ "ckmkzq") by (simpl; discriminate).
  assert (Hbare : category curtain_switch_bare ≠ "ckmkzq") by (simpl; discriminate).
  split; [exact Hcls |]. split; [exact H30 |]. split.
  - exact (proj1 (curtain_position_inverts_raw curtain_30 Hcls H30) 30 eq_refl).
  - exact (proj2 (curtain_position_inverts_raw curtain_switch_bare Hcls Hbare) eq_refl).
Defined.

Lemma supported_features_by_device_witness :
  classes_distinct ∧ flags_independent ∧
  supported_features (new_cover curtain_30) = 15 ∧
  supports_feature (supported_features (new_cover curtain_30)) SUPPORT_STOP = true ∧
  supports_feature (supported_features (new_cover curtain_30)) SUPPORT_SET_POSITION
    = true.
Proof.
  assert (Hcls : classes_distinct) by (unfold classes_distinct; simpl; discriminate).
  assert (Hflags : flags_independent)
    by (unfold flags_independent; simpl; repeat split; discriminate).
  destruct (supported_features_by_device curtain_30 Hcls Hflags)
    as (_ & _ & Hstop & Hpos).
  split; [exact Hcls |]. split; [exact Hflags |]. split; [reflexivity |]. split.
  - apply Hstop. simpl. discriminate.
  - apply Hpos. exists (VInt 30). reflexivity.
Defined.

Lemma curtain_never_closed_witness :
  classes_distinct ∧ category curtain_30 ≠ "ckmkzq" ∧
  is_closed (new_cover curtain_30) = false.
Proof.
  assert (Hcls : classes_distinct) by (unfold classes_distinct; simpl; discriminate).
  assert (Hcat : category curtain_30 ≠ "ckmkzq") by (simpl; discriminate).
  split; [exact Hcls |]. split; [exact Hcat |].
  exact (curtain_never_closed curtain_30 Hcls Hcat).
Defined.

(** The examples of the specification's section 8 that hold as written. *)
Example curtain_30_position :
  current_cover_position (new_cover curtain_30) = Ok 70.
Proof. reflexivity. Qed.

Example curtain_30_close :
  close_cover (new_cover curtain_30) []
    = Ok (tt, [[ {| code := "control"; cmd_value := VStr "close" |} ]]).
Proof. reflexivity. Qed.

Example garage_open :
  open_cover (new_cover garage_contact_true) [] = Ok (tt, [garage_toggle]).
Proof. reflexivity. Qed.

Example setup_two_devices :
  _setup_entities
    {[ "a" := Some garage_no_contact; "b" := None; "c" := Some curtain_30 ]}
    ["a"; "b"; "c"]
  = Ok [ {| tuya_device := garage_no_contact; _type := "garage" |};
         {| tuya_device := curtain_30; _type := "curtain" |} ].
Proof. reflexivity. Qed.

Example setup_unknown_id :
  _setup_entities {[ "a" := Some garage_no_contact ]} ["a"; "z"]
  = Raise (KeyError "z").
Proof. reflexivity. Qed.

End AtHomeAssistant.

(** * Further properties of the code *)

(** ** Entity construction *)

Section SetupFacts.
Context {host : HostConsts}.

(** An exception of [_setup_entities] is the [KeyError] of an announced id
    that the device map does not know. *)
Lemma _setup_entities_raise device_map (device_ids : list string) e :
  _setup_entities device_map device_ids = Raise e →
  ∃ device_id, device_id ∈ device_ids ∧
    device_map !! device_id = None ∧ e = KeyError device_id.
Proof.
  induction device_ids as [| device_id rest IH]; simpl; [discriminate |].
  destruct (device_map !! device_id) as [[d |] |] eqn:Hlook.
  - destruct (_setup_entities device_map rest) as [tail | e'] eqn:Hrest; [discriminate |].
    intros [= <-]. destruct (IH eq_refl) as (i & Hi & Hnone & He).
    exists i. split; [right; exact Hi | split; assumption].
  - intros Hrun. destruct (IH Hrun) as (i & Hi & Hnone & He).
    exists i. split; [right; exact Hi | split; assumption].
  - intros [= <-]. exists device_id. split; [left | split; [exact Hlook | reflexivity]].
Qed.

Lemma _setup_entities_omap device_map (device_ids : list string) :
  Forall (λ device_id, is_Some (device_map !! device_id)) device_ids →
  _setup_entities device_map device_ids =
    Ok (new_cover <$> omap (λ device_id, mjoin (device_map !! device_id)) device_ids).
Proof.
  induction 1 as [| device_id rest [[d |] Hd] _ IH]; [reflexivity | |];
    simpl; rewrite IH, Hd; reflexivity.
Qed.

(** When every announced id is a key of the device map, [_setup_entities]
    returns one entity per id whose entry is a device, in the order of the
    ids: an entry that is [None] contributes nothing, an id announced twice
    contributes twice. *)
Theorem _setup_entities_known device_map (device_ids : list string) :
  (∀ device_id, device_id ∈ device_ids → is_Some (device_map !! device_id)) →
  _setup_entities device_map device_ids =
    Ok (new_cover <$> omap (λ device_id, mjoin (device_map !! device_id)) device_ids).
Proof.
  intros Hknown. apply _setup_entities_omap, Forall_forall, Hknown.
Qed.

(** The first announced id that the device map does not know makes
    [_setup_entities] raise its [KeyError], whatever follows it and however
    many entities the ids before it would have given. *)
Theorem _setup_entities_unknown device_map (known : list string) device_id
    (rest : list string) :
  Forall (λ i, is_Some (device_map !! i)) known →
  device_map !! device_id = None →
  _setup_entities device_map (known ++ device_id :: rest) = Raise (KeyError device_id).
Proof.
  intros Hknown Hnone. induction Hknown as [| i known [[d |] Hi] _ IH]; simpl.
  - rewrite Hnone. reflexivity.
  - rewrite Hi, IH. reflexivity.
  - rewrite Hi. exact IH.
Qed.

(** Announcing two batches in one call gives the entities of the first
    followed by those of the second; an exception of the first batch wins
    over one of the second. *)
Theorem _setup_entities_app device_map (first second : list string) :
  _setup_entities device_map (first ++ second) =
    match _setup_entities device_map first with
    | Ok entities =>
        match _setup_entities device_map second with
        | Ok more => Ok (entities ++ more)
        | Raise e => Raise e
        end
    | Raise e => Raise e
    end.
Proof.
  induction first as [| device_id first IH]; simpl.
  - destruct (_setup_entities device_map second); reflexivity.
  - destruct (device_map !! device_id) as [[d |] |]; [| exact IH | reflexivity].
    rewrite IH. destruct (_setup_entities device_map first); [| reflexivity].
    destruct (_setup_entities device_map second); reflexivity.
Qed.

(** [_setup_entities] never returns more entities than ids were announced. *)
Theorem _setup_entities_length device_map (device_ids : list string) entities :
  _setup_entities device_map device_ids = Ok entities →
  (length entities ≤ length device_ids)%nat.
Proof.
  revert entities. induction device_ids as [| device_id rest IH]; simpl; intros entities.
  - intros [= <-]. reflexivity.
  - destruct (device_map !! device_id) as [[d |] |]; [| | discriminate].
    + destruct (_setup_entities device_map rest) as [tail |]; [| discriminate].
      intros [= <-]. simpl. specialize (IH tail eq_refl). lia.
    + intros Hrun. specialize (IH entities Hrun). lia.
Qed.

End SetupFacts.

(** ** Discovery glue *)

Lemma elem_of_TUYA_SUPPORT_TYPE (c : string) :
  c ∈ TUYA_SUPPORT_TYPE ↔ c = "cl" ∨ c = "clkg" ∨ c = "ckmkzq".
Proof.
  unfold TUYA_SUPPORT_TYPE. rewrite !elem_of_union, !elem_of_singleton. tauto.
Qed.

Lemma device_items_cons k d (devs : list (string * TuyaDevice)) :
  device_items ((k, d) :: devs) = (k, Some d) :: device_items devs.
Proof. reflexivity. Qed.

Lemma device_items_keys (devs : list (string * TuyaDevice)) :
  (device_items devs).*1 = devs.*1.
Proof.
  induction devs as [| [k d] devs IH]; [reflexivity |].
  rewrite device_items_cons. simpl. f_equal. exact IH.
Qed.

Lemma supported_device_ids_items (devs : list (string * TuyaDevice)) :
  supported_device_ids (device_items devs) = Done (supported_devices devs).*1.
Proof.
  induction devs as [| [k d] devs IH]; [reflexivity |].
  rewrite device_items_cons. simpl. rewrite IH.
  unfold supported_devices. rewrite filter_cons. simpl.
  case_bool_decide as Hcat; rewrite elem_of_TUYA_SUPPORT_TYPE in Hcat.
  - rewrite decide_True by exact Hcat. reflexivity.
  - rewrite decide_False by exact Hcat. reflexivity.
Qed.

Lemma supported_device_ids_none_entry (items : list (string * option TuyaDevice))
    device_id :
  (device_id, None) ∈ items → supported_device_ids items = Failed AttributeError.
Proof.
  intros Hi. induction items as [| [k [d |]] items IH]; simpl.
  - inversion Hi.
  - apply elem_of_cons in Hi as [[=] | Hi]. rewrite (IH Hi). reflexivity.
  - reflexivity.
Qed.

(** The startup enumeration fails exactly when some entry of the device
    map is [None], and then with the [AttributeError] of reading its
    category. *)
Theorem supported_device_ids_fails (items : list (string * option TuyaDevice)) e :
  supported_device_ids items = Failed e ↔
  e = AttributeError ∧ ∃ device_id, (device_id, None) ∈ items.
Proof.
  split.
  - revert e. induction items as [| [k [d |]] items IH]; simpl; intros e.
    + discriminate.
    + destruct (supported_device_ids items) as [ids | e'].
      * destruct (bool_decide _); discriminate.
      * intros [= <-]. destruct (IH e' eq_refl) as (He & i & Hi).
        split; [exact He | exists i; right; exact Hi].
    + intros [= <-]. split; [reflexivity | exists k; left].
  - intros (-> & i & Hi). exact (supported_device_ids_none_entry items i Hi).
Qed.

(** The ids the startup enumeration announces are those of the entries
    whose category is [cl], [clkg] or [ckmkzq], and they come in the order
    of the device map. *)
Theorem supported_device_ids_spec (items : list (string * option TuyaDevice))
    (device_ids : list string) :
  supported_device_ids items = Done device_ids →
  (∀ device_id, device_id ∈ device_ids ↔
     ∃ d, (device_id, Some d) ∈ items ∧
          (category d = "cl" ∨ category d = "clkg" ∨ category d = "ckmkzq")) ∧
  sublist device_ids items.*1.
Proof.
  revert device_ids. induction items as [| [k [d |]] items IH]; simpl; intros device_ids.
  - intros [= <-]. split; [| constructor].
    intros i. split; [intros Hi; inversion Hi |].
    intros (d & Hd & _). inversion Hd.
  - destruct (supported_device_ids items) as [ids |]; [| discriminate].
    destruct (IH ids eq_refl) as [Hmem Hsub].
    case_bool_decide as Hcat; rewrite elem_of_TUYA_SUPPORT_TYPE in Hcat;
      intros [= <-]; (split; [| by constructor]); intros i.
    + rewrite elem_of_cons, Hmem. split.
      * intros [-> | (d' & Hd' & Hc)]; [exists d; split; [left | exact Hcat] |].
        exists d'. split; [right; exact Hd' | exact Hc].
      * intros (d' & Hd' & Hc). apply elem_of_cons in Hd' as [[= -> ->] | Hd'];
          [left; reflexivity | right; exists d'; split; assumption].
    + rewrite Hmem. split.
      * intros (d' & Hd' & Hc). exists d'. split; [right; exact Hd' | exact Hc].
      * intros (d' & Hd' & Hc). apply elem_of_cons in Hd' as [[= -> ->] | Hd'];
          [contradiction | exists d'; split; assumption].
  - discriminate.
Qed.

Section DiscoveryFacts.
Context {host : HostConsts}.

(** A discovery batch leaves the device map, the category registry and
    the dispatcher alone. *)
Lemma async_discover_device_frame (dev_ids : list string) (st : HassData) :
  device_map (async_discover_device dev_ids st).2 = device_map st ∧
  tuya_ha_tuya_map (async_discover_device dev_ids st).2 = tuya_ha_tuya_map st ∧
  dispatcher (async_discover_device dev_ids st).2 = dispatcher st.
Proof.
  unfold async_discover_device. destruct dev_ids as [| i ids]; [done |].
  destruct (_setup_entities _ _); done.
Qed.

(** A discovery batch that fails registers nothing: the state is the one
    before the call - also for the ids of the batch that the device map
    knows - and the exception is the [KeyError] of an announced id that is
    not a key of the device map. *)
Theorem async_discover_device_failed (dev_ids : list string) (st st' : HassData) e :
  async_discover_device dev_ids st = (Failed e, st') →
  st' = st ∧
  ∃ device_id, device_id ∈ dev_ids ∧
    device_lookup st !! device_id = None ∧ e = AdapterError (KeyError device_id).
Proof.
  unfold async_discover_device. destruct dev_ids as [| i ids]; [discriminate |].
  destruct (_setup_entities _ _) as [entities | e'] eqn:Hrun; [discriminate |].
  intros [= <- <-]. split; [reflexivity |].
  destruct (_setup_entities_raise _ _ _ Hrun) as (j & Hj & Hnone & ->).
  exists j. split; [exact Hj | split; [exact Hnone | reflexivity]].
Qed.

(** The entity list of the integration and the entities handed to the
    host stay in step: if the list is some base followed by everything
    handed over so far, it still is after a discovery batch, whatever the
    batch and whether or not it fails. *)
Theorem async_discover_device_in_step (dev_ids : list string) (st : HassData)
    (base : list TuyaHaCover) :
  tuya_ha_devices st = base ++ concat (added_entities st) →
  tuya_ha_devices (async_discover_device dev_ids st).2 =
    base ++ concat (added_entities (async_discover_device dev_ids st).2).
Proof.
  intros Hstep. unfold async_discover_device. destruct dev_ids as [| i ids]; [exact Hstep |].
  destruct (_setup_entities _ _) as [entities | e]; [| exact Hstep].
  simpl. rewrite Hstep, concat_app. simpl. rewrite app_nil_r, app_assoc. reflexivity.
Qed.

Lemma lookup_device_items (devs : list (string * TuyaDevice)) k d :
  NoDup devs.*1 → (k, d) ∈ devs →
  (list_to_map (device_items devs) : gmap string (option TuyaDevice)) !! k
    = Some (Some d).
Proof.
  intros Hnodup Hin. apply elem_of_list_to_map_1.
  - rewrite device_items_keys. exact Hnodup.
  - unfold device_items. apply list_elem_of_fmap. exists (k, d). split; [reflexivity | exact Hin].
Qed.

Lemma omap_lookup_known (m : gmap string (option TuyaDevice))
    (l : list (string * TuyaDevice)) :
  (∀ k d, (k, d) ∈ l → m !! k = Some (Some d)) →
  omap (λ device_id, mjoin (m !! device_id)) l.*1 = l.*2.
Proof.
  induction l as [| [k d] l IH]; intros Hknown; [reflexivity |].
  simpl. rewrite (Hknown k d) by left. simpl. f_equal.
  apply IH. intros k' d' Hin. apply Hknown. right. exact Hin.
Qed.

(** The supported devices of a well-formed device map are all found again
    by [_setup_entities]. *)
Lemma _setup_entities_supported (devs : list (string * TuyaDevice)) :
  NoDup devs.*1 →
  _setup_entities (list_to_map (device_items devs)) (supported_devices devs).*1
    = Ok (new_cover <$> (supported_devices devs).*2).
Proof.
  intros Hnodup.
  assert (Hknown : ∀ k d, (k, d) ∈ supported_devices devs →
            (list_to_map (device_items devs) : gmap string (option TuyaDevice)) !! k
              = Some (Some d)).
  { intros k d Hin. apply lookup_device_items; [exact Hnodup |].
    unfold supported_devices in Hin. apply list_elem_of_filter in Hin as [_ Hin]. exact Hin. }
  rewrite _setup_entities_omap.
  - rewrite (omap_lookup_known _ _ Hknown). reflexivity.
  - apply Forall_forall. intros i Hi.
    apply list_elem_of_fmap in Hi as ([k d] & -> & Hin).
    simpl. rewrite (Hknown k d Hin). eauto.
Qed.

(** Startup on a device map without [None] entries never raises: every
    device whose category is [cl], [clkg] or [ckmkzq] gets its entity, in
    the order of the map; the entities are appended to the integration's
    list and handed to the host in one call - no call when there are none. *)
Theorem async_setup_entry_devices (DEVICE_DOMAIN discovery_signal : string)
    (st : HassData) (devs : list (string * TuyaDevice)) :
  device_map st = device_items devs →
  NoDup devs.*1 →
  async_setup_entry DEVICE_DOMAIN discovery_signal st =
    (Done tt,
     {| tuya_ha_tuya_map :=
          <[DEVICE_DOMAIN := TUYA_SUPPORT_TYPE]> (tuya_ha_tuya_map st);
        tuya_ha_devices :=
          tuya_ha_devices st ++ (new_cover <$> (supported_devices devs).*2);
        device_map := device_map st;
        added_entities :=
          match supported_devices devs with
          | [] => added_entities st
          | _ :: _ => added_entities st ++ [new_cover <$> (supported_devices devs).*2]
          end;
        dispatcher := dispatcher st ++ [discovery_signal] |}).
Proof.
  intros Hmap Hnodup.
  pose proof (_setup_entities_supported devs Hnodup) as Hrun.
  unfold async_setup_entry, async_discover_device, device_lookup. simpl.
  rewrite !Hmap, supported_device_ids_items.
  destruct (supported_devices devs) as [| [k d] sd].
  - simpl. rewrite app_nil_r. reflexivity.
  - simpl fmap at 1. rewrite Hrun. reflexivity.
Qed.

(** Startup on a device map with a [None] entry fails with
    [AttributeError] - the guard of [_setup_entities] against such an entry
    is never reached - after the categories were registered and the
    discovery callback connected, and without any entity. *)
Theorem async_setup_entry_none_entry (DEVICE_DOMAIN discovery_signal : string)
    (st : HassData) (device_id : string) :
  (device_id, None) ∈ device_map st →
  async_setup_entry DEVICE_DOMAIN discovery_signal st =
    (Failed AttributeError,
     {| tuya_ha_tuya_map :=
          <[DEVICE_DOMAIN := TUYA_SUPPORT_TYPE]> (tuya_ha_tuya_map st);
        tuya_ha_devices := tuya_ha_devices st;
        device_map := device_map st;
        added_entities := added_entities st;
        dispatcher := dispatcher st ++ [discovery_signal] |}).
Proof.
  intros Hnone. unfold async_setup_entry. simpl.
  rewrite (supported_device_ids_none_entry _ _ Hnone). reflexivity.
Qed.

(** Whatever its outcome, startup registers the three categories under
    the cover platform without touching the entry of any other platform,
    connects the discovery callback once, and leaves the device map as it
    was. *)
Theorem async_setup_entry_registers (DEVICE_DOMAIN discovery_signal : string)
    (st : HassData) :
  let st' := (async_setup_entry DEVICE_DOMAIN discovery_signal st).2 in
  tuya_ha_tuya_map st' !! DEVICE_DOMAIN = Some ({[ "cl"; "clkg"; "ckmkzq" ]} : gset string) ∧
  (∀ platform, platform ≠ DEVICE_DOMAIN →
     tuya_ha_tuya_map st' !! platform = tuya_ha_tuya_map st !! platform) ∧
  dispatcher st' = dispatcher st ++ [discovery_signal] ∧
  device_map st' = device_map st.
Proof.
  simpl. unfold async_setup_entry. simpl.
  destruct (supported_device_ids (device_map st)) as [ids | e]; simpl.
  - match goal with |- context [async_discover_device ids ?s] =>
      destruct (async_discover_device_frame ids s) as (Hmap & Hreg & Hdisp)
    end.
    rewrite Hmap, Hreg, Hdisp. simpl.
    split; [apply lookup_insert_eq |].
    split; [intros j Hj; apply lookup_insert_ne; congruence | done].
  - split; [apply lookup_insert_eq |].
    split; [intros j Hj; apply lookup_insert_ne; congruence | done].
Qed.

End DiscoveryFacts.

(** ** Entity properties and commands *)

Section EntityFacts.
Context {host : HostConsts}.

(** A curtain's open and close commands are the single directives
    [{code: "control", value: "open"}] and [{code: "control", value:
    "close"}]. *)
Theorem curtain_open_close_directives (d : TuyaDevice) (sent : list (list command)) :
  classes_distinct →
  category d ≠ "ckmkzq" →
  open_cover (new_cover d) sent =
    Ok (tt, sent ++ [[ {| code := "control"; cmd_value := VStr "open" |} ]]) ∧
  close_cover (new_cover d) sent =
    Ok (tt, sent ++ [[ {| code := "control"; cmd_value := VStr "close" |} ]]).
Proof.
  intros Hcls Hcat. unfold open_cover, close_cover.
  rewrite (new_cover_curtain d Hcls Hcat). split; reflexivity.
Qed.

(** [set_cover_position] raises exactly when the call has no [position]
    keyword, and then the [KeyError] of that keyword; other keywords play
    no part. *)
Theorem set_cover_position_raises (self : TuyaHaCover) (kwargs : gmap string value)
    (sent : list (list command)) (e : exn) :
  set_cover_position self kwargs sent = Raise e ↔
  kwargs !! "position" = None ∧ e = KeyError "position".
Proof.
  unfold set_cover_position, dict_item, mbind, act_bind, act_lift, ATTR_POSITION.
  destruct (kwargs !! "position") as [v |]; simpl.
  - split; [discriminate | intros [[=] _]].
  - split; [intros [= <-]; done | intros [_ ->]; reflexivity].
Qed.

(** A curtain's position is not clamped: with an integer raw percentage it
    lies in 0..100 exactly when the raw percentage does. *)
Theorem curtain_position_range (d : TuyaDevice) (raw : Z) :
  classes_distinct →
  category d ≠ "ckmkzq" →
  status d !! DPCODE_PERCENT_STATE = Some (VInt raw) →
  ∃ position, current_cover_position (new_cover d) = Ok position ∧
    (0 ≤ position ≤ 100 ↔ 0 ≤ raw ≤ 100).
Proof.
  intros Hcls Hcat Hraw. exists (100 - raw). split; [| lia].
  rewrite (current_cover_position_not_garage _ (new_cover_curtain d Hcls Hcat)).
  rewrite new_cover_device, (dict_get_present _ _ _ _ Hraw). reflexivity.
Qed.


(** A garage door's position and closed state depend on the status only
    through [doorcontact_state] - a [percent_state] is never read - and the
    position is 0 or 100, never an exception. *)
Theorem garage_reads_contact_only (d d' : TuyaDevice) :
  category d = "ckmkzq" →
  category d' = "ckmkzq" →
  status d !! DPCODE_GD_CSTATE = status d' !! DPCODE_GD_CSTATE →
  current_cover_position (new_cover d) = current_cover_position (new_cover d') ∧
  is_closed (new_cover d) = is_closed (new_cover d') ∧
  (current_cover_position (new_cover d) = Ok 0 ∨
   current_cover_position (new_cover d) = Ok 100).
Proof.
  intros Hcat Hcat' Hsame.
  pose proof (new_cover_garage d Hcat) as Hg.
  pose proof (new_cover_garage d' Hcat') as Hg'.
  rewrite !(current_cover_position_garage _ Hg), !(current_cover_position_garage _ Hg').
  rewrite (is_closed_garage _ Hg), (is_closed_garage _ Hg').
  rewrite !new_cover_device. unfold dict_get. rewrite Hsame.
  repeat split. destruct (truthy _); [right | left]; reflexivity.
Qed.


End EntityFacts.

(** ** The further properties at Home Assistant's constants *)

Section FurtherAtHomeAssistant.
#[local] Existing Instance home_assistant.

Lemma _setup_entities_known_witness :
  _setup_entities (list_to_map devices_with_gap) ["gd1"; "gone"; "gd1"] =
    Ok [new_cover garage_no_contact; new_cover garage_no_contact].
Proof.
  assert (Hknown : ∀ i, i ∈ ["gd1"; "gone"; "gd1"] →
            is_Some ((list_to_map devices_with_gap
                        : gmap string (option TuyaDevice)) !! i)).
  { intros i Hi. repeat (apply elem_of_cons in Hi as [-> | Hi]);
      [vm_compute; eauto .. | inversion Hi]. }
  exact (_setup_entities_known (list_to_map devices_with_gap)
           ["gd1"; "gone"; "gd1"] Hknown).
Defined.

Lemma _setup_entities_unknown_witness :
  _setup_entities (list_to_map devices_with_gap) (["gd1"] ++ "zz" :: ["gone"]) =
    Raise (KeyError "zz").
Proof.
  apply (_setup_entities_unknown (list_to_map devices_with_gap) ["gd1"] "zz" ["gone"]).
  - repeat constructor. vm_compute. eauto.
  - reflexivity.
Defined.

Lemma supported_device_ids_spec_witness :
  supported_device_ids three_devices = Done ["gd1"; "cl1"] ∧
  sublist ["gd1"; "cl1"] three_devices.*1.
Proof.
  split; [reflexivity |].
  exact (proj2 (supported_device_ids_spec three_devices ["gd1"; "cl1"] eq_refl)).
Defined.

Lemma async_discover_device_failed_witness :
  async_discover_device ["gd1"; "zz"] (hass_with three_devices) =
    (Failed (AdapterError (KeyError "zz")), hass_with three_devices) ∧
  ∃ device_id, device_id ∈ ["gd1"; "zz"] ∧
    device_lookup (hass_with three_devices) !! device_id = None ∧
    AdapterError (KeyError "zz") = AdapterError (KeyError device_id).
Proof.
  split; [reflexivity |].
  exact (proj2 (async_discover_device_failed ["gd1"; "zz"] (hass_with three_devices)
                  (hass_with three_devices) (AdapterError (KeyError "zz")) eq_refl)).
Defined.

Lemma async_discover_device_in_step_witness :
  tuya_ha_devices (hass_with three_devices) =
    [] ++ concat (added_entities (hass_with three_devices)) ∧
  tuya_ha_devices (async_discover_device ["gd1"] (hass_with three_devices)).2 =
    [] ++ concat (added_entities
                    (async_discover_device ["gd1"] (hass_with three_devices)).2).
Proof.
  split; [reflexivity |].
  exact (async_discover_device_in_step ["gd1"] (hass_with three_devices) [] eq_refl).
Defined.

Lemma async_setup_entry_devices_witness :
  NoDup three_device_records.*1 ∧
  (async_setup_entry "cover" "tuya_discovery_new_cover" (hass_with three_devices)).1
    = Done tt ∧
  tuya_ha_devices
    (async_setup_entry "cover" "tuya_discovery_new_cover" (hass_with three_devices)).2
    = [new_cover garage_no_contact; new_cover curtain_30].
Proof.
  assert (Hnodup : NoDup three_device_records.*1)
    by (apply (bool_decide_unpack _); vm_compute; exact I).
  split; [exact Hnodup |].
  rewrite (async_setup_entry_devices "cover" "tuya_discovery_new_cover"
             (hass_with three_devices) three_device_records eq_refl Hnodup).
  split; reflexivity.
Defined.

Lemma async_setup_entry_none_entry_witness :
  ("gone", None) ∈ devices_with_gap ∧
  (async_setup_entry "cover" "tuya_discovery_new_cover" (hass_with devices_with_gap)).1
    = Failed AttributeError.
Proof.
  assert (Hgap : ("gone", None) ∈ device_map (hass_with devices_with_gap))
    by (right; left).
  split; [exact Hgap |].
  rewrite (async_setup_entry_none_entry "cover" "tuya_discovery_new_cover"
             (hass_with devices_with_gap) "gone" Hgap).
  reflexivity.
Defined.

Lemma curtain_open_close_directives_witness :
  classes_distinct ∧ category curtain_30 ≠ "ckmkzq" ∧
  close_cover (new_cover curtain_30) [] =
    Ok (tt, [] ++ [[ {| code := "control"; cmd_value := VStr "close" |} ]]).
Proof.
  assert (Hcls : classes_distinct) by (unfold classes_distinct; simpl; discriminate).
  assert (Hcat : category curtain_30 ≠ "ckmkzq") by (simpl; discriminate).
  split; [exact Hcls |]. split; [exact Hcat |].
  exact (proj2 (curtain_open_close_directives curtain_30 [] Hcls Hcat)).
Defined.

Lemma curtain_position_range_witness :
  classes_distinct ∧ category curtain_30 ≠ "ckmkzq" ∧
  ∃ position, current_cover_position (new_cover curtain_30) = Ok position ∧
    (0 ≤ position ≤ 100 ↔ 0 ≤ 30 ≤ 100).
Proof.
  assert (Hcls : classes_distinct) by (unfold classes_distinct; simpl; discriminate).
  assert (Hcat : category curtain_30 ≠ "ckmkzq") by (simpl; discriminate).
  split; [exact Hcls |]. split; [exact Hcat |].
  exact (curtain_position_range curtain_30 30 Hcls Hcat eq_refl).
Defined.


Lemma garage_reads_contact_only_witness :
  category garage_no_contact = "ckmkzq" ∧ category garage_with_percent = "ckmkzq" ∧
  current_cover_position (new_cover garage_no_contact) =
    current_cover_position (new_cover garage_with_percent).
Proof.
  split; [reflexivity |]. split; [reflexivity |].
  exact (proj1 (garage_reads_contact_only garage_no_contact garage_with_percent
                  eq_refl eq_refl eq_refl)).
Defined.


End FurtherAtHomeAssistant.
